(** * pyannote.audio.features.utils: audio reading and precomputed feature caches

    A shallow embedding of [src/pyannote/audio/features/utils.py]:
    [read_audio], the numpy-backed cache [Precomputed] and the HTK-backed
    cache [PrecomputedHTK], followed by the properties of these functions.

    Python values are embedded as follows.
    - A Python [float] is a binary64 number: Rocq's primitive [float], with
      its IEEE comparisons ([nan] is different from itself).
    - An exception is a value of [exn]; a computation that may raise returns a
      [result]; a computation that also reads or writes files is a function
      of the file system, in the monad [M].
    - The file system is a finite map from paths to nodes.  A path names a
      node by its spelling, and a file is given by what its reader decodes
      from it.  Conditions of the operating system (permissions, a missing
      parent directory, a full disk) are outside the model.
    - [item] arguments are represented by the key that
      [pyannote.database.util.get_unique_identifier] derives from them. *)

From Stdlib Require Import ZArith Floats Ascii String Lia.
From stdpp Require Import gmap strings list.

Set Warnings "-inexact-float".

Local Open Scope string_scope.
Local Open Scope Z_scope.

(** ** Exceptions and results *)

Inductive errno := ENOENT | EISDIR.

Inductive exn :=
| ValueError (msg : string)
| TypeError (msg : string)
| AttributeError (msg : string)
| IndexError (msg : string)
| IOError (code : errno) (filename : string)
| FormatError (filename : string)
| StructError (expected : Z)
| PyannoteFeatureExtractionError (msg : string).

Inductive result (A : Type) :=
| Ok (a : A)
| Raise (e : exn).

Arguments Ok {A} a.
Arguments Raise {A} e.

#[global] Instance result_ret : MRet result := fun A a => Ok a.

#[global] Instance result_bind : MBind result :=
  fun A B k r => match r with Ok a => k a | Raise e => Raise e end.

(** [mapM_result f l]: apply [f] to the elements of [l] from left to right;
    the first exception wins. *)
Fixpoint mapM_result {A B : Type} (f : A -> result B) (l : list A) : result (list B) :=
  match l with
  | [] => Ok []
  | x :: l' =>
      match f x with
      | Ok y => match mapM_result f l' with Ok ys => Ok (y :: ys) | Raise e => Raise e end
      | Raise e => Raise e
      end
  end.

(** The double quote character, for messages that contain it. *)
Definition dq : string := String (ascii_of_nat 34) EmptyString.

(** ** Strings and paths *)

Definition slash : ascii := ascii_of_nat 47.

Definition is_slash (c : ascii) : bool := Ascii.eqb c slash.

Fixpoint has_slash (s : string) : bool :=
  match s with
  | EmptyString => false
  | String c s' => is_slash c || has_slash s'
  end.

Fixpoint all_slashes (s : string) : bool :=
  match s with
  | EmptyString => true
  | String c s' => is_slash c && all_slashes s'
  end.


(** [p[:p.rfind('/') + 1]]: the longest prefix of [p] that ends with a slash. *)
Fixpoint head_of (p : string) : string :=
  match p with
  | EmptyString => EmptyString
  | String c p' => if has_slash p then String c (head_of p') else EmptyString
  end.

(** [s.rstrip('/')] *)
Fixpoint rstrip_slash (s : string) : string :=
  match s with
  | EmptyString => EmptyString
  | String c s' => if all_slashes s then EmptyString else String c (rstrip_slash s')
  end.

(** [os.path.dirname] of [posixpath]:
    [head = p[:p.rfind('/')+1]]; the trailing slashes of [head] are stripped
    unless [head] is empty or made of slashes only. *)
Definition os_path_dirname (p : string) : string :=
  let head := head_of p in
  if negb (String.eqb head EmptyString) && negb (all_slashes head)
  then rstrip_slash head
  else head.

(** ** Numbers and arrays *)

(** [float(z)] for a Python integer [z] with [|z| < 2^63]. *)
Definition float_of_Z (z : Z) : float :=
  if z <? 0 then (- of_uint63 (Uint63.of_Z (- z)))%float
  else of_uint63 (Uint63.of_Z z).

(** A numpy array of floats with one or two axes.  [Arr1 v] has shape
    [(len v,)]; [Arr2 ncols rows] has shape [(len rows, ncols)] and every row
    has [ncols] entries (the column count is kept apart so that an array
    without rows still has a shape). *)
Inductive ndarray :=
| Arr1 (v : list float)
| Arr2 (ncols : nat) (rows : list (list float)).

Definition ndim (a : ndarray) : nat :=
  match a with Arr1 _ => 1%nat | Arr2 _ _ => 2%nat end.

Definition shape (a : ndarray) : list nat :=
  match a with
  | Arr1 v => [length v]
  | Arr2 ncols rows => [length rows; ncols]
  end.

(** The array [f(x)] for [x] in [a]. *)
Definition ndarray_map (f : float -> float) (a : ndarray) : ndarray :=
  match a with
  | Arr1 v => Arr1 (map f v)
  | Arr2 ncols rows => Arr2 ncols (map (map f) rows)
  end.

(** [a op y] for a scalar [y], element by element.  [None] stands for
    Python's [None]: the operation on an element raises [TypeError], so an
    array without elements goes through. *)
Definition elementwise (op : float -> float -> float) (sym : string)
    (a : ndarray) (y : option float) : result ndarray :=
  let f (x : float) : result float :=
    match y with
    | Some y => Ok (op x y)
    | None => Raise (TypeError ("unsupported operand type(s) for " ++ sym ++
                                ": 'float' and 'NoneType'"))
    end in
  match a with
  | Arr1 v => v' ← mapM_result f v; Ok (Arr1 v')
  | Arr2 ncols rows => rows' ← mapM_result (mapM_result f) rows; Ok (Arr2 ncols rows')
  end.

Definition ndarray_sub := elementwise PrimFloat.sub "-".
Definition ndarray_div := elementwise PrimFloat.div "/".

(** [(data - mu) / sigma] *)
Definition normalize (data : ndarray) (mu sigma : option float) : result ndarray :=
  centered ← ndarray_sub data mu; ndarray_div centered sigma.

(** [a.size]: the number of entries of an array. *)
Definition ndarray_size (a : ndarray) : nat :=
  match a with
  | Arr1 v => length v
  | Arr2 _ rows => length (concat rows)
  end.

(** ** pyannote.core: sliding windows and features *)

Record SlidingWindow := {
  start : float;
  duration : float;
  step : float
}.

(** [SlidingWindow(duration=..., step=..., start=...)] of pyannote.core
    refuses a duration or a step that is [<= 0]. *)
Definition SlidingWindow_init (duration step start : float) : result SlidingWindow :=
  if (duration <=? 0)%float then Raise (ValueError "'duration' must be a float > 0.")
  else if (step <=? 0)%float then Raise (ValueError "'step' must be a float > 0.")
  else Ok {| start := start; duration := duration; step := step |}.

(** What holds of every [SlidingWindow] object: it went through
    [SlidingWindow_init]. *)
Definition valid_window (w : SlidingWindow) : bool :=
  negb (duration w <=? 0)%float && negb (step w <=? 0)%float.

(** The comparison of lines 224-226:
    [a.start != b.start or a.duration != b.duration or a.step != b.step]. *)
Definition window_differs (a b : SlidingWindow) : bool :=
  negb (start a =? start b)%float ||
  negb (duration a =? duration b)%float ||
  negb (step a =? step b)%float.


Record SlidingWindowFeature := {
  data : ndarray;
  sliding_window : SlidingWindow
}.

(** ** The file system *)

(** The mapping stored in [metadata.yml] (lines 240-243). *)
Record metadata := {
  md_start : float;
  md_duration : float;
  md_step : float;
  md_dimension : Z
}.

(** A node of the file system: a directory, a file that [np.load] decodes to
    an array, a file that [yaml.load] decodes to the mapping of a cache schema,
    or any other file, given by its bytes. *)
Inductive node :=
| Directory
| NpyFile (content : ndarray)
| YamlFile (params : metadata)
| RawFile (bytes : list Z).

Abbreviation FS := (gmap string node).

(** Computations on the file system: the state at the point where an
    exception is raised is kept. *)
Definition M (A : Type) : Type := FS -> result A * FS.

#[global] Instance M_ret : MRet M := fun A a fs => (Ok a, fs).

#[global] Instance M_bind : MBind M :=
  fun A B k m fs =>
    match m fs with
    | (Ok a, fs') => k a fs'
    | (Raise e, fs') => (Raise e, fs')
    end.

Definition raise {A : Type} (e : exn) : M A := fun fs => (Raise e, fs).

Definition lift {A : Type} (r : result A) : M A := fun fs => (r, fs).

(** [os.path.exists(path)] *)
Definition os_path_exists (path : string) : M bool :=
  fun fs => (Ok (bool_decide (is_Some (fs !! path))), fs).

(** Modelled from the spec: [pyannote.audio.util.mkdir_p] is not under src/;
    the spec calls it a directory-creation helper that creates the directory
    if needed.  Nothing changes when the path is taken already. *)
Definition mkdir_p (path : string) : M unit :=
  fun fs =>
    match fs !! path with
    | Some _ => (Ok tt, fs)
    | None => (Ok tt, <[path := Directory]> fs)
    end.

(** [with io.open(path, 'r') as f: yaml.load(f)] *)
Definition yaml_load (path : string) : M metadata :=
  fun fs =>
    match fs !! path with
    | Some (YamlFile params) => (Ok params, fs)
    | Some Directory => (Raise (IOError EISDIR path), fs)
    | Some _ => (Raise (FormatError path), fs)
    | None => (Raise (IOError ENOENT path), fs)
    end.

(** [with io.open(path, 'w') as f: yaml.dump(params, f, ...)] *)
Definition yaml_dump (path : string) (params : metadata) : M unit :=
  fun fs =>
    match fs !! path with
    | Some Directory => (Raise (IOError EISDIR path), fs)
    | _ => (Ok tt, <[path := YamlFile params]> fs)
    end.


(** [np.load(path, mmap_mode=...)]: a memory-mapped array holds the values
    of the file; the file is read only. *)
Definition np_load (path : string) (mmap_mode : option string) : M ndarray :=
  fun fs =>
    match fs !! path with
    | Some (NpyFile arr) => (Ok arr, fs)
    | Some Directory => (Raise (IOError EISDIR path), fs)
    | Some _ => (Raise (FormatError path), fs)
    | None => (Raise (IOError ENOENT path), fs)
    end.

(** ** [class Precomputed] *)

Module Precomputed.

Record t := {
  root_dir : string;
  use_memmap : bool;
  mu : option float;
  sigma : option float;
  sliding_window_ : SlidingWindow;
  dimension_ : Z
}.

(** Lines 194-197; [uri] is [get_unique_identifier(item)]. *)
Definition get_path (root_dir : string) (uri : string) : string :=
  root_dir ++ "/" ++ uri ++ ".npy".

(** The path of line 209. *)
Definition metadata_path (root_dir : string) : string :=
  root_dir ++ "/metadata.yml".

(** Lines 199-249.  An absent argument is [None].  On line 221 the message is
    formatted with [self.dimensions_], an attribute that no line assigns
    (line 216 assigns [self.dimension_]): evaluating it raises
    [AttributeError] before [ValueError] is built. *)
Definition __init__ (root_dir : string) (use_memmap : bool)
    (sliding_window : option SlidingWindow) (dimension : option Z)
    (mu sigma : option float) : M t :=
  let path := metadata_path root_dir in
  found ← os_path_exists path;
  if found : bool then
    params ← yaml_load path;
    let dimension_ := md_dimension params in
    sliding_window_ ← lift (SlidingWindow_init (md_duration params) (md_step params)
                                               (md_start params));
    let self := {| root_dir := root_dir; use_memmap := use_memmap;
                   mu := mu; sigma := sigma;
                   sliding_window_ := sliding_window_;
                   dimension_ := dimension_ |} in
    if match dimension with
       | Some d => negb (dimension_ =? d)
       | None => false
       end
    then raise (AttributeError "'Precomputed' object has no attribute 'dimensions_'")
    else if match sliding_window with
            | Some w => window_differs w sliding_window_
            | None => false
            end
    then raise (ValueError ("inconsistent " ++ dq ++ "sliding_window" ++ dq))
    else mret self
  else
    match sliding_window with
    | None => raise (ValueError ("missing " ++ dq ++ "sliding_window" ++ dq ++ " parameter."))
    | Some w =>
        match dimension with
        | None => raise (ValueError ("missing " ++ dq ++ "dimension" ++ dq ++ " parameter."))
        | Some d =>
            mkdir_p (os_path_dirname path);;
            yaml_dump path {| md_start := start w; md_duration := duration w;
                              md_step := step w; md_dimension := d |};;
            mret {| root_dir := root_dir; use_memmap := use_memmap;
                    mu := mu; sigma := sigma;
                    sliding_window_ := w; dimension_ := d |}
        end
    end.

(** Lines 257-275. *)
Definition __call__ (self : t) (uri : string) : M SlidingWindowFeature :=
  let path := get_path (root_dir self) uri in
  found ← os_path_exists path;
  if negb found then
    raise (PyannoteFeatureExtractionError
             ("No precomputed features for " ++ dq ++ uri ++ dq ++ "."))
  else
    arr ← (if use_memmap self then np_load path (Some "r") else np_load path None);
    match mu self, sigma self with
    | None, None => mret {| data := arr; sliding_window := sliding_window_ self |}
    | _, _ =>
        normalized ← lift (normalize arr (mu self) (sigma self));
        mret {| data := normalized; sliding_window := sliding_window_ self |}
    end.


End Precomputed.

(** ** [read_audio] (lines 93-147) *)

(** [y.reshape(1, -1)] of an array with one axis. *)
Definition reshape_1_n (y : ndarray) : ndarray :=
  match y with
  | Arr1 v => Arr2 (length v) [v]
  | Arr2 _ _ => y
  end.

(** [y[i, :]] with Python's indexing: a negative index counts from the end,
    and the axis that is indexed by an integer is dropped. *)
Definition index_row (y : ndarray) (i : Z) : result ndarray :=
  match y with
  | Arr1 _ => Raise (IndexError "too many indices for array")
  | Arr2 _ rows =>
      let n := Z.of_nat (length rows) in
      let j := if i <? 0 then i + n else i in
      match (if (0 <=? j) && (j <? n) then rows !! Z.to_nat j else None) with
      | Some row => Ok (Arr1 row)
      | None => Raise (IndexError "index out of bounds")
      end
  end.

(** [np.mean(y, axis=0)] *)
Definition mean_axis0 (ncols : nat) (rows : list (list float)) : list float :=
  map (fun j => (fold_left PrimFloat.add (map (fun row => nth j row 0%float) rows) 0
                 / float_of_Z (Z.of_nat (length rows)))%float)
      (seq 0 ncols).

(** [librosa.to_mono]: the mean over the channels of an array with two axes,
    and the array itself when it has one (its check that the samples are
    finite numbers is left out). *)
Definition to_mono (y : ndarray) : ndarray :=
  match y with
  | Arr1 _ => y
  | Arr2 ncols rows => Arr1 (mean_axis0 ncols rows)
  end.

(** [y.T]: an array with one axis is its own transpose. *)
Definition transpose (y : ndarray) : ndarray :=
  match y with
  | Arr1 _ => y
  | Arr2 ncols rows =>
      Arr2 (length rows) (map (fun j => map (fun row => nth j row 0%float) rows) (seq 0 ncols))
  end.

(** Lines 134-147 of [read_audio].  [y] and [sample_rate] are what the
    decoder of lines 119-132 ([sphfile] or [librosa.load(..., mono=False)])
    returned; [channel] is [current_file['channel']] when the key is there. *)
Definition read_audio (y : ndarray) (sample_rate : Z) (channel : option Z) (mono : bool)
    : result (ndarray * Z) :=
  let y := if (ndim y =? 1)%nat then reshape_1_n y else y in
  y ← match channel with
      | Some channel => index_row y (channel - 1)
      | None => Ok y
      end;
  let y := if mono then to_mono y else y in
  Ok (transpose y, sample_rate).

(** ** [class RawAudio] (lines 150-180) *)

Module RawAudio.

Record t := {
  sample_rate : option Z;
  mono : bool;
  mu : float;
  sigma : float
}.

(** Lines 162-167. *)
Definition __init__ (sample_rate : option Z) (mono : bool) (mu sigma : float) : t :=
  {| sample_rate := sample_rate; mono := mono; mu := mu; sigma := sigma |}.

(** How [__call__] ends: with a value, with one of the exceptions of [exn],
    or with the [ZeroDivisionError] of [1. / sample_rate]. *)
Inductive outcome (A : Type) :=
| Returns (a : A)
| Raises (e : exn)
| ZeroDivisionError.

Arguments Returns {A} a.
Arguments Raises {A} e.
Arguments ZeroDivisionError {A}.

(** Lines 169-180.  [decode rate] is what the decoder of lines 119-132
    returns when it is asked for the sampling rate [rate]; [channel] is
    [current_file['channel']] when the key is there. *)
Definition __call__ (self : t) (decode : option Z -> result (ndarray * Z))
    (channel : option Z) : outcome SlidingWindowFeature :=
  match decode (sample_rate self) with
  | Raise e => Raises e
  | Ok (y, rate) =>
      match read_audio y rate channel (mono self) with
      | Raise e => Raises e
      | Ok (y, sample_rate) =>
          if sample_rate =? 0 then ZeroDivisionError
          else
            let period := (1 / float_of_Z sample_rate)%float in
            match SlidingWindow_init period period 0%float with
            | Raise e => Raises e
            | Ok sliding_window =>
                match normalize y (Some (mu self)) (Some (sigma self)) with
                | Raise e => Raises e
                | Ok normalized =>
                    Returns {| data := normalized; sliding_window := sliding_window |}
                end
            end
      end
  end.

End RawAudio.

(** ** Reading HTK files *)

(** A big-endian unsigned integer. *)
Definition be_uint (bs : list Z) : Z := fold_left (fun acc b => acc * 256 + b) bs 0.

(** The two's complement reading of a [w]-bit pattern. *)
Definition to_signed (w : Z) (z : Z) : Z := if z <? 2 ^ (w - 1) then z else z - 2 ^ w.

(** [unpack('>iihh', data)] *)
Definition unpack_header (data : list Z) : result (Z * Z * Z * Z) :=
  if (length data =? 12)%nat then
    Ok (to_signed 32 (be_uint (take 4 data)),
        to_signed 32 (be_uint (take 4 (drop 4 data))),
        to_signed 16 (be_uint (take 2 (drop 8 data))),
        to_signed 16 (be_uint (take 2 (drop 10 data))))
  else Raise (StructError 12).

(** The binary32 number with bit pattern [w], as a Python float: a sign bit,
    8 bits of exponent and 23 bits of mantissa. *)
Definition f32_of_bits (w : Z) : float :=
  let e := Z.land (Z.shiftr w 23) 255 in
  let m := Z.land w 8388607 in
  let magnitude :=
    if e =? 255 then (if m =? 0 then infinity else nan)
    else if e =? 0 then Z.ldexp (float_of_Z m) (-149)
    else Z.ldexp (float_of_Z (8388608 + m)) (e - 150) in
  if Z.testbit w 31 then (- magnitude)%float else magnitude.

Fixpoint unpack_f (n : nat) (data : list Z) : list float :=
  match n with
  | O => []
  | S n' => f32_of_bits (be_uint (take 4 data)) :: unpack_f n' (drop 4 data)
  end.

(** [unpack('>' + 'f' * count, data)]: a negative [count] repeats ['f']
    zero times; the buffer must have 4 bytes for each float. *)
Definition unpack_floats (count : Z) (data : list Z) : result (list float) :=
  let n := Z.max 0 count in
  if Z.of_nat (length data) =? 4 * n then Ok (unpack_f (Z.to_nat n) data)
  else Raise (StructError (4 * n)).

(** [fp.read(size)]: the bytes read and the rest of the file; a negative
    [size] reads up to the end. *)
Definition fp_read (size : Z) (fp : list Z) : list Z * list Z :=
  if size <? 0 then (fp, []) else (take (Z.to_nat size) fp, drop (Z.to_nat size) fp).

(** [X[i, :] = values] for a row of [num_features] entries: a single value
    is broadcast. *)
Definition assign_row (num_features : Z) (values : list float) : result (list float) :=
  if Z.of_nat (length values) =? num_features then Ok values
  else match values with
       | [v] => Ok (replicate (Z.to_nat num_features) v)
       | _ => Raise (ValueError "could not broadcast input array")
       end.

(** The loop of lines 342-344, on [n] frames. *)
Fixpoint read_samples (n : nat) (sample_size num_features : Z) (fp : list Z)
    : result (list (list float)) :=
  match n with
  | O => Ok []
  | S n' =>
      let '(data, fp) := fp_read sample_size fp in
      values ← unpack_floats (sample_size `div` 4) data;
      row ← assign_row num_features values;
      rows ← read_samples n' sample_size num_features fp;
      Ok (row :: rows)
  end.

(** Lines 337-345 of [load_htk], on the bytes of the file. *)
Definition load_htk_bytes (fp : list Z) : result (ndarray * Z) :=
  let '(data, fp) := fp_read 12 fp in
  '(num_samples, sample_period, sample_size, _) ← unpack_header data;
  let num_features := Z.quot sample_size 4 in
  if (num_samples <? 0) || (num_features <? 0)
  then Raise (ValueError "negative dimensions are not allowed")
  else
    rows ← read_samples (Z.to_nat num_samples) sample_size num_features fp;
    Ok (Arr2 (Z.to_nat num_features) rows, sample_period).


(** ** The HTK format

    The format of a file as the specification describes it: a 12-byte
    big-endian header (int32 number of samples, int32 sample period, int16
    sample size in bytes, int16 reserved) followed by one record per sample,
    each record made of 4-byte big-endian floats.  A float is given by its
    32-bit pattern. *)

(** The [n] bytes of the big-endian [8 * n]-bit pattern of [z] (two's
    complement for a negative [z]). *)
Fixpoint be_bytes (n : nat) (z : Z) : list Z :=
  match n with
  | O => []
  | S n' => (z / 256 ^ Z.of_nat n') mod 256 :: be_bytes n' z
  end.

Definition htk_header (num_samples sample_period sample_size reserved : Z) : list Z :=
  (be_bytes 4 num_samples ++ be_bytes 4 sample_period ++
   be_bytes 2 sample_size ++ be_bytes 2 reserved)%list.

Definition htk_record (record : list Z) : list Z := concat (map (be_bytes 4) record).

Definition htk_file (num_samples sample_period sample_size reserved : Z)
    (records : list (list Z)) : list Z :=
  (htk_header num_samples sample_period sample_size reserved ++
   concat (map htk_record records))%list.

(** The header fields fit their widths and describe the records. *)
Definition well_formed_htk (num_samples sample_period sample_size reserved : Z)
    (num_features : nat) (records : list (list Z)) : Prop :=
  num_samples = Z.of_nat (length records) /\
  num_samples < 2 ^ 31 /\
  - 2 ^ 31 <= sample_period < 2 ^ 31 /\
  sample_size = 4 * Z.of_nat num_features /\
  sample_size < 2 ^ 15 /\
  - 2 ^ 15 <= reserved < 2 ^ 15 /\
  Forall (fun record => length record = num_features /\
                        Forall (fun w => 0 <= w < 2 ^ 32) record) records.

(** ** [glob.glob] *)

Definition is_magic (c : ascii) : bool :=
  Ascii.eqb c "*"%char || Ascii.eqb c "?"%char || Ascii.eqb c "["%char.

(** [glob.has_magic] *)
Fixpoint has_magic (s : string) : bool :=
  match s with
  | EmptyString => false
  | String c s' => is_magic c || has_magic s'
  end.

(** A name that starts with a dot. *)
Definition is_hidden (name : string) : bool :=
  match name with
  | String c _ => Ascii.eqb c "."%char
  | EmptyString => false
  end.

(** [fnmatch.fnmatchcase(name, pat)] for the wildcards [*] and [?].
    Bracket expressions are not modelled: [[] matches itself. *)
Fixpoint fnmatch (pat : string) : string -> bool :=
  match pat with
  | EmptyString => fun name => String.eqb name EmptyString
  | String c pat' =>
      if Ascii.eqb c "*"%char then
        fix star (name : string) : bool :=
          fnmatch pat' name ||
          match name with
          | EmptyString => false
          | String _ name' => star name'
          end
      else if Ascii.eqb c "?"%char then
        fun name =>
          match name with
          | EmptyString => false
          | String _ name' => fnmatch pat' name'
          end
      else
        fun name =>
          match name with
          | EmptyString => false
          | String d name' => Ascii.eqb c d && fnmatch pat' name'
          end
  end.

(** [s.split('/')] *)
Fixpoint split_slash (s : string) : list string :=
  match s with
  | EmptyString => [EmptyString]
  | String c s' =>
      if is_slash c then EmptyString :: split_slash s'
      else match split_slash s' with
           | [] => [String c EmptyString]
           | w :: ws => String c w :: ws
           end
  end.


(** A component of a pattern against a name of a directory: a component
    with a wildcard matches the names that [fnmatch] accepts, hidden names
    only when the component is hidden too; any other component names one
    entry. *)
Definition component_matches (pat name : string) : bool :=
  if has_magic pat then
    negb (String.eqb name EmptyString) &&
    (negb (is_hidden name) || is_hidden pat) &&
    fnmatch pat name
  else String.eqb pat name.

Fixpoint components_match (pats names : list string) : bool :=
  match pats, names with
  | [], [] => true
  | pat :: pats', name :: names' => component_matches pat name && components_match pats' names'
  | _, _ => false
  end.

Definition path_matches (pattern path : string) : bool :=
  components_match (split_slash pattern) (split_slash path).

(** [glob(pattern)]: the paths of the file system whose components match
    those of the pattern, by their spelling (Python removes a repeated slash
    of the pattern from what it returns).  Python leaves the order of the
    matches to the operating system; here it is the order in which the map
    lists its paths. *)
Definition glob (pattern : string) : M (list string) :=
  fun fs => (Ok (List.filter (path_matches pattern) (map fst (map_to_list fs))), fs).


(** ** [class PrecomputedHTK] *)

Module PrecomputedHTK.

Record t := {
  root_dir : string;
  duration : float;
  step : float;
  mu : float;
  sigma : float;
  sliding_window_ : SlidingWindow;
  dimension_ : nat
}.

(** The default of the [duration] argument (line 285). *)
Definition default_duration : float := 0.025%float.

(** Lines 326-330; [uri] is [get_unique_identifier(item)]. *)
Definition get_path (root_dir : string) (uri : string) : string :=
  root_dir ++ "/" ++ uri ++ ".htk".

(** [X.shape[1]] *)
Definition shape_1 (X : ndarray) : result nat :=
  match X with
  | Arr2 ncols _ => Ok ncols
  | Arr1 _ => Raise (IndexError "tuple index out of range")
  end.

Section Serialised.

(** The bytes that [np.save] and [yaml.dump] write are left open. *)
Variable npy_bytes : ndarray -> list Z.
Variable yaml_bytes : metadata -> list Z.

(** [open(path, 'rb')] and the bytes of the file. *)
Definition open_rb (path : string) : M (list Z) :=
  fun fs =>
    match fs !! path with
    | Some (RawFile bytes) => (Ok bytes, fs)
    | Some (NpyFile arr) => (Ok (npy_bytes arr), fs)
    | Some (YamlFile params) => (Ok (yaml_bytes params), fs)
    | Some Directory => (Raise (IOError EISDIR path), fs)
    | None => (Raise (IOError ENOENT path), fs)
    end.

(** Lines 334-345. *)
Definition load_htk (file_htk : string) : M (ndarray * Z) :=
  fp ← open_rb file_htk;
  lift (load_htk_bytes fp).

(** Lines 285-318.  [step] is [None] unless the caller gives one. *)
Definition __init__ (root_dir : string) (duration : float) (step : option float)
    (mu sigma : float) : M t :=
  let path := root_dir ++ "/*/*.htk" in
  found ← glob path;
  match found with
  | [] => raise (ValueError ("Could not find any HTK file in '" ++ root_dir ++ "'."))
  | file_htk :: _ =>
      '(X, sample_period) ← load_htk file_htk;
      dimension_ ← lift (shape_1 X);
      let step_ := (float_of_Z sample_period * 1e-7)%float in
      let step_ := match step with Some s => s | None => step_ end in
      sliding_window_ ← lift (SlidingWindow_init duration step_ 0%float);
      mret {| root_dir := root_dir; duration := duration; step := step_;
              mu := mu; sigma := sigma;
              sliding_window_ := sliding_window_; dimension_ := dimension_ |}
  end.

(** Lines 347-351. *)
Definition __call__ (self : t) (uri : string) : M SlidingWindowFeature :=
  let file_htk := get_path (root_dir self) uri in
  '(X, _) ← load_htk file_htk;
  normalized ← lift (normalize X (Some (mu self)) (Some (sigma self)));
  mret {| data := normalized; sliding_window := sliding_window_ self |}.

End Serialised.

End PrecomputedHTK.

(** ** Examples *)

(** The grid of start 0, duration 0.025 and step 0.01. *)
Definition example_window : SlidingWindow :=
  {| start := 0%float; duration := 0.025%float; step := 0.01%float |}.

(** A handle on the cache [cache], of dimension 2. *)
Definition example_cache (mu sigma : option float) : Precomputed.t :=
  {| Precomputed.root_dir := "cache"; Precomputed.use_memmap := true;
     Precomputed.mu := mu; Precomputed.sigma := sigma;
     Precomputed.sliding_window_ := example_window; Precomputed.dimension_ := 2 |}.


(** A cache that holds the entry [db/file1]. *)
Definition example_cache_fs : FS :=
  {[ "cache/db/file1.npy" := NpyFile (Arr2 2 [[6%float; 10%float]]) ]}.

Definition example_schema : metadata :=
  {| md_start := 0%float; md_duration := 0.025%float; md_step := 0.01%float;
     md_dimension := 2 |}.

(** A cache that holds its schema file. *)
Definition example_schema_fs : FS := {[ "cache/metadata.yml" := YamlFile example_schema ]}.


(** The bit patterns of [(1.0, 2.0)] and [(3.0, 4.0)]. *)
Definition example_records : list (list Z) :=
  [[0x3F800000; 0x40000000]; [0x40400000; 0x40800000]].

(** The file of header [(2, 100000, 8, 0)] and of these two records. *)
Definition example_htk_bytes : list Z := htk_file 2 100000 8 0 example_records.

(** The same file two levels below [feat], two levels below [data], and one
    level below [feat]. *)
Definition example_htk_fs : FS := {[ "feat/db/a.htk" := RawFile example_htk_bytes ]}.



(** A serialisation, for the examples: none of them opens such a file. *)
Definition no_bytes {A : Type} (_ : A) : list Z := [].

(** * Properties *)

(** ** Strings and paths *)


Lemma append_cons (c : ascii) (s t : string) : String c s ++ t = String c (s ++ t).
Proof. reflexivity. Qed.


























(** ** Arrays and sliding windows *)

Lemma mapM_result_ok {A B : Type} (f : A -> B) (l : list A) :
  mapM_result (fun x => Ok (f x)) l = Ok (map f l).
Proof. induction l as [|x l IH]; simpl; [reflexivity | now rewrite IH]. Qed.

Lemma mapM_result_rows_ok {A B : Type} (f : A -> B) (rows : list (list A)) :
  mapM_result (mapM_result (fun x => Ok (f x))) rows = Ok (map (map f) rows).
Proof.
  induction rows as [|r rows IH]; simpl; [reflexivity |].
  now rewrite mapM_result_ok, IH.
Qed.

Lemma elementwise_some op sym a y :
  elementwise op sym a (Some y) = Ok (ndarray_map (fun x => op x y) a).
Proof.
  destruct a as [v|ncols rows]; unfold elementwise, mbind, result_bind.
  - now rewrite mapM_result_ok.
  - now rewrite mapM_result_rows_ok.
Qed.

Lemma normalize_some (a : ndarray) (m s : float) :
  normalize a (Some m) (Some s) = Ok (ndarray_map (fun x => ((x - m) / s)%float) a).
Proof.
  unfold normalize, ndarray_sub, ndarray_div. rewrite elementwise_some. cbn.
  rewrite elementwise_some. f_equal.
  destruct a as [v|ncols rows]; simpl; f_equal.
  - now rewrite map_map.
  - rewrite map_map. apply map_ext. intros r. now rewrite map_map.
Qed.

Lemma SlidingWindow_init_valid (w : SlidingWindow) :
  valid_window w = true ->
  SlidingWindow_init (duration w) (step w) (start w) = Ok w.
Proof.
  unfold valid_window, SlidingWindow_init. intros H.
  apply andb_prop in H as [Hd Hs].
  apply negb_true_iff in Hd, Hs. rewrite Hd, Hs. now destruct w.
Qed.


(** An operand [None] fails at the first entry. *)
Lemma mapM_result_none_rows (f : float -> result float) (e : exn) (rows : list (list float)) :
  (forall x, f x = Raise e) ->
  concat rows <> [] ->
  mapM_result (mapM_result f) rows = Raise e.
Proof.
  intros Hf. induction rows as [|row rows IH]; intros Hne; [now destruct Hne |].
  cbn [mapM_result]. destruct row as [|x row].
  - cbn [mapM_result]. cbn [concat app] in Hne. now rewrite IH.
  - cbn [mapM_result]. now rewrite Hf.
Qed.

Lemma elementwise_none (op : float -> float -> float) (sym : string) (a : ndarray) :
  (0 < ndarray_size a)%nat ->
  elementwise op sym a None =
    Raise (TypeError ("unsupported operand type(s) for " ++ sym ++ ": 'float' and 'NoneType'")).
Proof.
  intros Hsize. destruct a as [v|ncols rows]; unfold elementwise, mbind, result_bind.
  - destruct v as [|x v]; [simpl in Hsize; lia | reflexivity].
  - rewrite (mapM_result_none_rows _ (TypeError ("unsupported operand type(s) for " ++ sym ++
                                                  ": 'float' and 'NoneType'"))).
    + reflexivity.
    + reflexivity.
    + intros H. simpl in Hsize. rewrite H in Hsize. simpl in Hsize. lia.
Qed.

Lemma ndarray_map_size (f : float -> float) (a : ndarray) :
  ndarray_size (ndarray_map f a) = ndarray_size a.
Proof.
  destruct a as [v|ncols rows]; simpl; [apply length_map |].
  induction rows as [|row rows IH]; [reflexivity |].
  cbn [map concat]. rewrite !length_app, length_map. now rewrite IH.
Qed.


(** ** [Precomputed] *)



(** The constructor on an existing schema file (lines 213-228). *)
Lemma Precomputed_init_existing
    (root_dir : string) (use_memmap : bool) (sliding_window : option SlidingWindow)
    (dimension : option Z) (mu sigma : option float) (fs : FS) (params : metadata) :
  fs !! Precomputed.metadata_path root_dir = Some (YamlFile params) ->
  Precomputed.__init__ root_dir use_memmap sliding_window dimension mu sigma fs =
    match SlidingWindow_init (md_duration params) (md_step params) (md_start params) with
    | Raise e => (Raise e, fs)
    | Ok w =>
        if match dimension with
           | Some d => negb (md_dimension params =? d)
           | None => false
           end
        then (Raise (AttributeError "'Precomputed' object has no attribute 'dimensions_'"), fs)
        else if match sliding_window with
                | Some w' => window_differs w' w
                | None => false
                end
        then (Raise (ValueError ("inconsistent " ++ dq ++ "sliding_window" ++ dq)), fs)
        else (Ok {| Precomputed.root_dir := root_dir; Precomputed.use_memmap := use_memmap;
                    Precomputed.mu := mu; Precomputed.sigma := sigma;
                    Precomputed.sliding_window_ := w;
                    Precomputed.dimension_ := md_dimension params |}, fs)
    end.
Proof.
  intros Hfile.
  unfold Precomputed.__init__, mbind, M_bind, os_path_exists, yaml_load, lift, raise.
  rewrite Hfile. rewrite bool_decide_eq_true_2 by eauto. cbv beta iota. rewrite Hfile.
  destruct (SlidingWindow_init _ _ _) as [w|e]; [| reflexivity].
  destruct (match dimension with Some d => _ | None => _ end); [reflexivity |].
  destruct (match sliding_window with Some w' => _ | None => _ end); reflexivity.
Qed.


Lemma Precomputed_call_found (self : Precomputed.t) (uri : string) (fs : FS) (arr : ndarray) :
  fs !! Precomputed.get_path (Precomputed.root_dir self) uri = Some (NpyFile arr) ->
  Precomputed.__call__ self uri fs =
    match Precomputed.mu self, Precomputed.sigma self with
    | None, None =>
        (Ok {| data := arr; sliding_window := Precomputed.sliding_window_ self |}, fs)
    | m, s =>
        match normalize arr m s with
        | Ok normalized =>
            (Ok {| data := normalized;
                   sliding_window := Precomputed.sliding_window_ self |}, fs)
        | Raise e => (Raise e, fs)
        end
    end.
Proof.
  intros Hfile. unfold Precomputed.__call__, mbind, M_bind, os_path_exists, np_load, lift.
  rewrite Hfile. rewrite bool_decide_eq_true_2 by eauto.
  change (negb true) with false. cbv beta iota.
  destruct (Precomputed.use_memmap self); rewrite Hfile;
    destruct (Precomputed.mu self) as [m|], (Precomputed.sigma self) as [s|];
    try reflexivity;
    match goal with |- context [normalize ?a ?x ?y] => destruct (normalize a x y) end;
    reflexivity.
Qed.



(** C2 (dimension mismatch).  On a schema file that stores a valid grid and a
    dimension other than the one the caller gives, the constructor does not
    reach the [ValueError] that lines 220-221 prepare: formatting its message
    evaluates [self.dimensions_], which no line assigns, and the open ends
    with [AttributeError].  The file system is left as it was. *)
Theorem Precomputed_init_dimension_mismatch
    (root_dir : string) (use_memmap : bool) (sliding_window : option SlidingWindow)
    (d' : Z) (mu sigma : option float) (fs : FS) (params : metadata) :
  fs !! Precomputed.metadata_path root_dir = Some (YamlFile params) ->
  (md_duration params <=? 0)%float = false ->
  (md_step params <=? 0)%float = false ->
  md_dimension params <> d' ->
  Precomputed.__init__ root_dir use_memmap sliding_window (Some d') mu sigma fs =
    (Raise (AttributeError "'Precomputed' object has no attribute 'dimensions_'"), fs).
Proof.
  intros Hfile Hd Hs Hneq.
  rewrite (Precomputed_init_existing _ _ _ _ _ _ _ _ Hfile).
  unfold SlidingWindow_init. rewrite Hd, Hs.
  apply Z.eqb_neq in Hneq. now rewrite Hneq.
Qed.

(** C2 on a schema of dimension 2 opened with dimension 3. *)
Lemma Precomputed_init_dimension_mismatch_witness :
  example_schema_fs !! Precomputed.metadata_path "cache" = Some (YamlFile example_schema) /\
  (md_duration example_schema <=? 0)%float = false /\
  (md_step example_schema <=? 0)%float = false /\
  md_dimension example_schema <> 3 /\
  Precomputed.__init__ "cache" true None (Some 3) None None example_schema_fs =
    (Raise (AttributeError "'Precomputed' object has no attribute 'dimensions_'"),
     example_schema_fs).
Proof.
  assert (H : md_dimension example_schema <> 3) by discriminate.
  split; [reflexivity | split; [reflexivity | split; [reflexivity | split; [exact H |]]]].
  exact (Precomputed_init_dimension_mismatch "cache" true None 3 None None
           example_schema_fs example_schema eq_refl eq_refl eq_refl H).
Defined.

(** A sliding window that differs from the stored one in one of its three
    numbers is refused (lines 223-228). *)
Theorem Precomputed_init_window_mismatch
    (root_dir : string) (use_memmap : bool) (w : SlidingWindow)
    (mu sigma : option float) (fs : FS) (params : metadata) :
  fs !! Precomputed.metadata_path root_dir = Some (YamlFile params) ->
  valid_window {| start := md_start params; duration := md_duration params;
                  step := md_step params |} = true ->
  window_differs w {| start := md_start params; duration := md_duration params;
                      step := md_step params |} = true ->
  Precomputed.__init__ root_dir use_memmap (Some w) None mu sigma fs =
    (Raise (ValueError ("inconsistent " ++ dq ++ "sliding_window" ++ dq)), fs).
Proof.
  intros Hfile Hvalid Hdiff.
  rewrite (Precomputed_init_existing _ _ _ _ _ _ _ _ Hfile).
  rewrite (SlidingWindow_init_valid _ Hvalid : SlidingWindow_init (md_duration params)
             (md_step params) (md_start params) = Ok _).
  now rewrite Hdiff.
Qed.

(** The stored step is 0.01 and the given one 0.02. *)
Lemma Precomputed_init_window_mismatch_witness :
  Precomputed.__init__ "cache" true
      (Some {| start := 0%float; duration := 0.025%float; step := 0.02%float |})
      None None None example_schema_fs =
    (Raise (ValueError ("inconsistent " ++ dq ++ "sliding_window" ++ dq)),
     example_schema_fs).
Proof.
  exact (Precomputed_init_window_mismatch "cache" true
           {| start := 0%float; duration := 0.025%float; step := 0.02%float |}
           None None example_schema_fs example_schema eq_refl eq_refl eq_refl).
Defined.



(** C4 (entry not found).  [__call__] on a key whose file is absent raises
    [PyannoteFeatureExtractionError] with a message that quotes the key, and
    leaves the file system as it was. *)
Theorem Precomputed_call_not_found (self : Precomputed.t) (uri : string) (fs : FS) :
  fs !! Precomputed.get_path (Precomputed.root_dir self) uri = None ->
  Precomputed.__call__ self uri fs =
    (Raise (PyannoteFeatureExtractionError
              ("No precomputed features for " ++ dq ++ uri ++ dq ++ ".")), fs).
Proof.
  intros Hnone. unfold Precomputed.__call__, mbind, M_bind, os_path_exists.
  rewrite Hnone.
  rewrite bool_decide_eq_false_2; [reflexivity | intros [? ?]; discriminate].
Qed.

(** C4 on the key [db/file2] of a cache that holds [db/file1] only. *)
Lemma Precomputed_call_not_found_witness :
  example_cache_fs !! Precomputed.get_path "cache" "db/file2" = None /\
  Precomputed.__call__ (example_cache None None) "db/file2" example_cache_fs =
    (Raise (PyannoteFeatureExtractionError
              ("No precomputed features for " ++ dq ++ "db/file2" ++ dq ++ ".")),
     example_cache_fs).
Proof.
  assert (H : example_cache_fs !! Precomputed.get_path "cache" "db/file2" = None)
    by reflexivity.
  split; [exact H |].
  exact (Precomputed_call_not_found (example_cache None None) "db/file2" example_cache_fs H).
Defined.

(** C5, amended (normalization).  On a stored matrix, [__call__] returns
    [(data - mu) / sigma] when [mu] and [sigma] are both set, and the stored
    matrix itself when both are unset; with [mu = 2.0] and [sigma = 4.0] the
    stored matrix [[6.0, 10.0]] is returned as [[1.0, 2.0]]. *)
Theorem Precomputed_call_normalization
    (self : Precomputed.t) (uri : string) (fs : FS) (arr : ndarray) :
  fs !! Precomputed.get_path (Precomputed.root_dir self) uri = Some (NpyFile arr) ->
  (Precomputed.mu self = None -> Precomputed.sigma self = None ->
   Precomputed.__call__ self uri fs =
     (Ok {| data := arr; sliding_window := Precomputed.sliding_window_ self |}, fs)) /\
  (forall m s : float,
     Precomputed.mu self = Some m -> Precomputed.sigma self = Some s ->
     Precomputed.__call__ self uri fs =
       (Ok {| data := ndarray_map (fun x => ((x - m) / s)%float) arr;
              sliding_window := Precomputed.sliding_window_ self |}, fs)) /\
  (Precomputed.mu self = Some 2%float -> Precomputed.sigma self = Some 4%float ->
   arr = Arr2 2 [[6%float; 10%float]] ->
   Precomputed.__call__ self uri fs =
     (Ok {| data := Arr2 2 [[1%float; 2%float]];
            sliding_window := Precomputed.sliding_window_ self |}, fs)).
Proof.
  intros Hfile. rewrite (Precomputed_call_found _ _ _ _ Hfile).
  split; [| split].
  - intros -> ->. reflexivity.
  - intros m s -> ->. now rewrite normalize_some.
  - intros -> -> ->. reflexivity.
Qed.

(** C5 on the stored matrix [[6, 10]], without and with [mu = 2], [sigma = 4]. *)
Lemma Precomputed_call_normalization_witness :
  example_cache_fs !! Precomputed.get_path "cache" "db/file1" =
    Some (NpyFile (Arr2 2 [[6%float; 10%float]])) /\
  Precomputed.__call__ (example_cache None None) "db/file1" example_cache_fs =
    (Ok {| data := Arr2 2 [[6%float; 10%float]]; sliding_window := example_window |},
     example_cache_fs) /\
  Precomputed.__call__ (example_cache (Some 2%float) (Some 4%float)) "db/file1" example_cache_fs =
    (Ok {| data := Arr2 2 [[1%float; 2%float]]; sliding_window := example_window |},
     example_cache_fs).
Proof.
  assert (H : example_cache_fs !! Precomputed.get_path "cache" "db/file1" =
    Some (NpyFile (Arr2 2 [[6%float; 10%float]]))) by reflexivity.
  split; [exact H | split].
  - exact (proj1 (Precomputed_call_normalization (example_cache None None) "db/file1"
                    example_cache_fs _ H) eq_refl eq_refl).
  - exact (proj2 (proj2 (Precomputed_call_normalization
                           (example_cache (Some 2%float) (Some 4%float)) "db/file1"
                           example_cache_fs _ H)) eq_refl eq_refl eq_refl).
Defined.

(** C5 as stated fails when exactly one of [mu] and [sigma] is set: the test
    of line 271 holds only when both are unset, so line 274 divides by [None].
    With [mu = 2.0] alone, the read of [[6.0, 10.0]] raises [TypeError]
    instead of returning the stored matrix. *)
Lemma Precomputed_call_one_parameter_unset :
  Precomputed.mu (example_cache (Some 2%float) None) = Some 2%float /\
  Precomputed.sigma (example_cache (Some 2%float) None) = None /\
  example_cache_fs !! Precomputed.get_path "cache" "db/file1" =
    Some (NpyFile (Arr2 2 [[6%float; 10%float]])) /\
  Precomputed.__call__ (example_cache (Some 2%float) None) "db/file1" example_cache_fs =
    (Raise (TypeError "unsupported operand type(s) for /: 'float' and 'NoneType'"),
     example_cache_fs) /\
  Precomputed.__call__ (example_cache (Some 2%float) None) "db/file1" example_cache_fs <>
    (Ok {| data := Arr2 2 [[6%float; 10%float]]; sliding_window := example_window |},
     example_cache_fs).
Proof.
  assert (H : Precomputed.__call__ (example_cache (Some 2%float) None) "db/file1" example_cache_fs =
    (Raise (TypeError "unsupported operand type(s) for /: 'float' and 'NoneType'"),
     example_cache_fs)) by reflexivity.
  repeat split; try reflexivity.
  rewrite H. discriminate.
Defined.














(** With exactly one of [mu] and [sigma] set, the read of a stored array
    that is not empty raises [TypeError] (lines 271-275): of the subtraction
    when [mu] is unset, of the division when [sigma] is. *)
Theorem Precomputed_call_half_normalization
    (self : Precomputed.t) (uri : string) (fs : FS) (arr : ndarray) :
  fs !! Precomputed.get_path (Precomputed.root_dir self) uri = Some (NpyFile arr) ->
  (0 < ndarray_size arr)%nat ->
  (Precomputed.mu self = None -> Precomputed.sigma self <> None ->
   Precomputed.__call__ self uri fs =
     (Raise (TypeError "unsupported operand type(s) for -: 'float' and 'NoneType'"), fs)) /\
  (Precomputed.mu self <> None -> Precomputed.sigma self = None ->
   Precomputed.__call__ self uri fs =
     (Raise (TypeError "unsupported operand type(s) for /: 'float' and 'NoneType'"), fs)).
Proof.
  intros Hfile Hsize. rewrite (Precomputed_call_found _ _ _ _ Hfile). split.
  - intros -> Hsigma. destruct (Precomputed.sigma self) as [s|]; [| congruence].
    unfold normalize, ndarray_sub, mbind, result_bind.
    now rewrite (elementwise_none _ _ _ Hsize).
  - intros Hmu ->. destruct (Precomputed.mu self) as [m|]; [| congruence].
    unfold normalize, ndarray_sub, ndarray_div, mbind, result_bind.
    rewrite elementwise_some.
    rewrite elementwise_none; [reflexivity |]. now rewrite ndarray_map_size.
Qed.

(** [sigma = 4] alone, on the stored matrix [[6, 10]]. *)
Lemma Precomputed_call_half_normalization_witness :
  Precomputed.__call__ (example_cache None (Some 4%float)) "db/file1" example_cache_fs =
    (Raise (TypeError "unsupported operand type(s) for -: 'float' and 'NoneType'"),
     example_cache_fs).
Proof.
  assert (Hsize : (0 < ndarray_size (Arr2 2 [[6%float; 10%float]]))%nat) by (simpl; lia).
  assert (Hsigma : Precomputed.sigma (example_cache None (Some 4%float)) <> None)
    by discriminate.
  exact (proj1 (Precomputed_call_half_normalization (example_cache None (Some 4%float))
                  "db/file1" example_cache_fs _ eq_refl Hsize) eq_refl Hsigma).
Defined.

(** ** [read_audio] *)

(** C7 (channel selection).  On two channels, with [channel = 2],
    [read_audio] returns the samples of the second channel, with or without
    the mono mix, as an array with one axis: [y[channel - 1, :]] drops the
    axis of the channels, [to_mono] and [.T] leave an array with one axis as
    it is.  The shape is [(n_samples,)], not [(n_samples, 1)]. *)
Theorem read_audio_channel_drops_axis
    (n_samples : nat) (first second : list float) (sample_rate : Z) (mono : bool) :
  read_audio (Arr2 n_samples [first; second]) sample_rate (Some 2) mono =
    Ok (Arr1 second, sample_rate) /\
  shape (Arr1 second) = [length second] /\
  shape (Arr1 second) <> [length second; 1%nat].
Proof.
  split; [| split].
  - unfold read_audio. destruct mono; reflexivity.
  - reflexivity.
  - discriminate.
Qed.

(** Without channel selection and without mono mix the result has two axes. *)
Lemma read_audio_two_axes (y : ndarray) (sample_rate : Z) :
  exists ncols rows, read_audio y sample_rate None false = Ok (Arr2 ncols rows, sample_rate).
Proof. destruct y as [v|ncols rows]; cbn; eauto. Qed.

(** With the mono mix the samples that [read_audio] returns have one axis,
    and the sample rate is the one of the decoder (lines 143-147). *)
Theorem read_audio_mono_one_axis
    (y : ndarray) (sample_rate : Z) (channel : option Z) (samples : ndarray) (rate : Z) :
  read_audio y sample_rate channel true = Ok (samples, rate) ->
  ndim samples = 1%nat /\ rate = sample_rate.
Proof.
  unfold read_audio, mbind, result_bind. intros H.
  destruct (match channel with Some c => _ | None => _ end) as [y'|e]; [| discriminate].
  injection H as <- <-. split; [| reflexivity].
  destruct y'; reflexivity.
Qed.

(** The mean of two channels of three samples. *)
Lemma read_audio_mono_one_axis_witness :
  read_audio (Arr2 3 [[1; 2; 3]; [4; 5; 6]]%float) 16000 None true =
    Ok (Arr1 [2.5; 3.5; 4.5]%float, 16000) /\
  ndim (Arr1 [2.5; 3.5; 4.5]%float) = 1%nat.
Proof.
  split; [reflexivity |].
  exact (proj1 (read_audio_mono_one_axis (Arr2 3 [[1; 2; 3]; [4; 5; 6]]%float) 16000 None
                  (Arr1 [2.5; 3.5; 4.5]%float) 16000 eq_refl)).
Defined.



(** Without channel and without mono mix, [read_audio] returns the
    transpose of what the decoder gave (line 147): [n_samples] rows of one
    entry per channel, the sample [i] of the channel [c] at [(i, c)]. *)
Theorem read_audio_all_channels
    (n_samples : nat) (channels : list (list float)) (sample_rate : Z) :
  exists samples,
    read_audio (Arr2 n_samples channels) sample_rate None false =
      Ok (Arr2 (length channels) samples, sample_rate) /\
    length samples = n_samples /\
    forall (c i : nat) (channel : list float) (x : float),
      channels !! c = Some channel -> channel !! i = Some x -> (i < n_samples)%nat ->
      exists sample, samples !! i = Some sample /\ sample !! c = Some x.
Proof.
  eexists. split; [reflexivity | split].
  - now rewrite length_map, length_seq.
  - intros c i channel x Hc Hi Hlt.
    eexists. split.
    + rewrite list_lookup_fmap, lookup_seq_lt by exact Hlt. reflexivity.
    + rewrite list_lookup_fmap, Hc. cbn. f_equal.
      now apply nth_lookup_Some.
Qed.

(** ** [RawAudio] *)



(** ** The HTK format *)

(** The 28 bytes of the example file. *)
Lemma example_htk_bytes_literal :
  example_htk_bytes =
    [0; 0; 0; 2;  0; 1; 134; 160;  0; 8;  0; 0;
     63; 128; 0; 0;  64; 0; 0; 0;  64; 64; 0; 0;  64; 128; 0; 0].
Proof. reflexivity. Qed.

Lemma be_bytes_length (n : nat) (z : Z) : length (be_bytes n z) = n.
Proof. induction n as [|n IH]; simpl; [reflexivity | now rewrite IH]. Qed.

Lemma fold_be_bytes (n : nat) (z acc : Z) :
  fold_left (fun acc b => acc * 256 + b) (be_bytes n z) acc =
  acc * 256 ^ Z.of_nat n + z mod 256 ^ Z.of_nat n.
Proof.
  revert acc. induction n as [|n IH]; intros acc.
  - simpl. rewrite Z.mod_1_r. lia.
  - cbn [be_bytes fold_left]. rewrite IH.
    rewrite Nat2Z.inj_succ, Z.pow_succ_r by lia.
    rewrite (Z.mul_comm 256 (256 ^ Z.of_nat n)).
    rewrite (Z.rem_mul_r z (256 ^ Z.of_nat n) 256) by lia.
    ring.
Qed.

Lemma be_uint_be_bytes (n : nat) (z : Z) :
  be_uint (be_bytes n z) = z mod 256 ^ Z.of_nat n.
Proof. unfold be_uint. rewrite fold_be_bytes. lia. Qed.

Lemma to_signed_mod (w z : Z) :
  0 < w -> - 2 ^ (w - 1) <= z < 2 ^ (w - 1) -> to_signed w (z mod 2 ^ w) = z.
Proof.
  intros Hw Hz. unfold to_signed.
  assert (Hpow : 2 ^ w = 2 * 2 ^ (w - 1)).
  { rewrite <- Z.pow_succ_r by lia. f_equal. lia. }
  destruct (Z.ltb_spec (z mod 2 ^ w) (2 ^ (w - 1))) as [Hlt|Hge].
  - destruct (Z.le_gt_cases 0 z) as [Hnn|Hneg].
    + apply Z.mod_small. lia.
    + rewrite <- (Z.mod_add z 1 (2 ^ w)) in Hlt by lia.
      rewrite Z.mod_small in Hlt by lia. lia.
  - destruct (Z.le_gt_cases 0 z) as [Hnn|Hneg].
    + rewrite Z.mod_small in Hge by lia. lia.
    + rewrite <- (Z.mod_add z 1 (2 ^ w)) by lia.
      rewrite Z.mod_small by lia. lia.
Qed.

Lemma unpack_header_htk_header (a b c d : Z) :
  - 2 ^ 31 <= a < 2 ^ 31 -> - 2 ^ 31 <= b < 2 ^ 31 ->
  - 2 ^ 15 <= c < 2 ^ 15 -> - 2 ^ 15 <= d < 2 ^ 15 ->
  unpack_header (htk_header a b c d) = Ok (a, b, c, d).
Proof.
  intros Ha Hb Hc Hd. unfold unpack_header, htk_header.
  change (take 4 (be_bytes 4 a ++ be_bytes 4 b ++ be_bytes 2 c ++ be_bytes 2 d)%list)
    with (be_bytes 4 a).
  change (take 4 (drop 4 (be_bytes 4 a ++ be_bytes 4 b ++ be_bytes 2 c ++ be_bytes 2 d)%list))
    with (be_bytes 4 b).
  change (take 2 (drop 8 (be_bytes 4 a ++ be_bytes 4 b ++ be_bytes 2 c ++ be_bytes 2 d)%list))
    with (be_bytes 2 c).
  change (take 2 (drop 10 (be_bytes 4 a ++ be_bytes 4 b ++ be_bytes 2 c ++ be_bytes 2 d)%list))
    with (be_bytes 2 d).
  rewrite !be_uint_be_bytes.
  change (256 ^ Z.of_nat 4) with (2 ^ 32). change (256 ^ Z.of_nat 2) with (2 ^ 16).
  rewrite !to_signed_mod by (simpl; lia).
  reflexivity.
Qed.

Lemma htk_record_length (record : list Z) :
  length (htk_record record) = (4 * length record)%nat.
Proof.
  unfold htk_record. induction record as [|w record IH]; [reflexivity |].
  cbn [map concat length]. rewrite length_app, be_bytes_length, IH. lia.
Qed.

Lemma unpack_f_htk_record (record : list Z) :
  Forall (fun w => 0 <= w < 2 ^ 32) record ->
  unpack_f (length record) (htk_record record) = map f32_of_bits record.
Proof.
  unfold htk_record. induction 1 as [|w record Hw _ IH]; [reflexivity |].
  cbn [map concat length unpack_f].
  change (take 4 (be_bytes 4 w ++ concat (map (be_bytes 4) record))%list)
    with (be_bytes 4 w).
  change (drop 4 (be_bytes 4 w ++ concat (map (be_bytes 4) record))%list)
    with (concat (map (be_bytes 4) record)).
  rewrite IH, be_uint_be_bytes.
  change (256 ^ Z.of_nat 4) with (2 ^ 32).
  now rewrite Z.mod_small by exact Hw.
Qed.

Lemma unpack_floats_htk_record (num_features : nat) (record : list Z) :
  length record = num_features ->
  Forall (fun w => 0 <= w < 2 ^ 32) record ->
  unpack_floats (Z.of_nat num_features) (htk_record record) = Ok (map f32_of_bits record).
Proof.
  intros Hlen Hrange. unfold unpack_floats.
  rewrite Z.max_r by lia. rewrite htk_record_length, Hlen.
  replace (Z.of_nat (4 * num_features) =? 4 * Z.of_nat num_features) with true
    by (symmetry; apply Z.eqb_eq; lia).
  rewrite Nat2Z.id, <- Hlen. now rewrite unpack_f_htk_record.
Qed.

Lemma fp_read_app (bytes rest : list Z) :
  fp_read (Z.of_nat (length bytes)) (bytes ++ rest)%list = (bytes, rest).
Proof.
  unfold fp_read. replace (Z.of_nat (length bytes) <? 0) with false
    by (symmetry; apply Z.ltb_ge; lia).
  rewrite Nat2Z.id. now rewrite take_app_length, drop_app_length.
Qed.

Lemma read_samples_htk_records (num_features : nat) (records : list (list Z)) :
  Forall (fun record => length record = num_features /\
                        Forall (fun w => 0 <= w < 2 ^ 32) record) records ->
  read_samples (length records) (4 * Z.of_nat num_features) (Z.of_nat num_features)
    (concat (map htk_record records)) =
  Ok (map (map f32_of_bits) records).
Proof.
  induction 1 as [|record records [Hlen Hrange] _ IH]; [reflexivity |].
  cbn [length map concat read_samples].
  replace (4 * Z.of_nat num_features) with (Z.of_nat (length (htk_record record)))
    by (rewrite htk_record_length, Hlen; lia).
  rewrite fp_read_app.
  replace (Z.of_nat (length (htk_record record))) with (4 * Z.of_nat num_features) in *
    by (rewrite htk_record_length, Hlen; lia).
  replace ((4 * Z.of_nat num_features) `div` 4) with (Z.of_nat num_features)
    by (rewrite Z.mul_comm, Z.div_mul; lia).
  rewrite (unpack_floats_htk_record _ _ Hlen Hrange).
  unfold mbind, result_bind, assign_row.
  rewrite length_map, Hlen, Z.eqb_refl, IH. reflexivity.
Qed.

(** [load_htk_bytes] decodes every well-formed file. *)
Lemma load_htk_bytes_htk_file
    (num_samples sample_period sample_size reserved : Z) (num_features : nat)
    (records : list (list Z)) :
  well_formed_htk num_samples sample_period sample_size reserved num_features records ->
  load_htk_bytes (htk_file num_samples sample_period sample_size reserved records) =
    Ok (Arr2 num_features (map (map f32_of_bits) records), sample_period).
Proof.
  intros (Hn & Hn31 & Hp & Hs & Hs15 & Hr & Hrecords).
  unfold load_htk_bytes, htk_file.
  change 12 with (Z.of_nat (length (htk_header num_samples sample_period sample_size reserved))).
  rewrite fp_read_app.
  rewrite unpack_header_htk_header by lia.
  unfold mbind, result_bind.
  replace (Z.quot sample_size 4) with (Z.of_nat num_features)
    by (rewrite Hs, Z.mul_comm, Z.quot_mul; lia).
  replace (num_samples <? 0) with false by (symmetry; apply Z.ltb_ge; lia).
  replace (Z.of_nat num_features <? 0) with false by (symmetry; apply Z.ltb_ge; lia).
  cbn [orb]. rewrite Hn, !Nat2Z.id, Hs.
  now rewrite (read_samples_htk_records _ _ Hrecords).
Qed.

(** A file shorter than its header ends in the error of [unpack]
    (lines 337-338). *)
Theorem load_htk_bytes_short_header (bytes : list Z) :
  (length bytes < 12)%nat ->
  load_htk_bytes bytes = Raise (StructError 12).
Proof.
  intros Hshort. unfold load_htk_bytes, fp_read, unpack_header.
  change (12 <? 0) with false. cbv iota.
  rewrite length_take.
  replace (Z.to_nat 12 `min` length bytes =? 12)%nat with false; [reflexivity |].
  symmetry. apply Nat.eqb_neq. lia.
Qed.

(** A file of 8 bytes. *)
Lemma load_htk_bytes_short_header_witness :
  load_htk_bytes [0; 0; 0; 2; 0; 1; 134; 160] = Raise (StructError 12).
Proof. apply load_htk_bytes_short_header. simpl. lia. Defined.

Lemma fold_be_uint_bounds (bs : list Z) (acc : Z) :
  Forall (fun b => 0 <= b < 256) bs -> 0 <= acc ->
  0 <= fold_left (fun acc b => acc * 256 + b) bs acc <
  (acc + 1) * 256 ^ Z.of_nat (length bs).
Proof.
  intros Hbs. revert acc. induction Hbs as [|b bs Hb _ IH]; intros acc Hacc.
  - simpl. lia.
  - cbn [fold_left length]. rewrite Nat2Z.inj_succ, Z.pow_succ_r by lia.
    specialize (IH (acc * 256 + b) ltac:(lia)).
    assert (0 < 256 ^ Z.of_nat (length bs)) by (apply Z.pow_pos_nonneg; lia).
    nia.
Qed.

Lemma be_uint_bounds (bs : list Z) :
  Forall (fun b => 0 <= b < 256) bs -> 0 <= be_uint bs < 256 ^ Z.of_nat (length bs).
Proof.
  intros Hbs. unfold be_uint.
  assert (H := fold_be_uint_bounds bs 0 Hbs ltac:(lia)). lia.
Qed.

Lemma to_signed_bounds (w z : Z) :
  0 < w -> 0 <= z < 2 ^ w -> - 2 ^ (w - 1) <= to_signed w z < 2 ^ (w - 1).
Proof.
  intros Hw Hz. unfold to_signed.
  assert (Hpow : 2 ^ w = 2 * 2 ^ (w - 1)).
  { rewrite <- Z.pow_succ_r by lia. f_equal. lia. }
  destruct (Z.ltb_spec z (2 ^ (w - 1))); lia.
Qed.

Lemma unpack_header_bounds (data : list Z) (num_samples sample_period sample_size kind : Z) :
  Forall (fun b => 0 <= b < 256) data ->
  unpack_header data = Ok (num_samples, sample_period, sample_size, kind) ->
  - 2 ^ 31 <= num_samples < 2 ^ 31 /\
  - 2 ^ 31 <= sample_period < 2 ^ 31 /\
  - 2 ^ 15 <= sample_size < 2 ^ 15.
Proof.
  intros Hdata. unfold unpack_header.
  destruct (length data =? 12)%nat eqn:Hlen; [| discriminate].
  apply Nat.eqb_eq in Hlen. intros H. injection H as <- <- <- _.
  assert (Hbound : forall (n : nat) (bs : list Z), Forall (fun b => 0 <= b < 256) bs ->
            length bs = n -> 0 <= be_uint bs < 2 ^ (8 * Z.of_nat n)).
  { intros n bs Hbs <-. replace (2 ^ (8 * Z.of_nat (length bs)))
      with (256 ^ Z.of_nat (length bs)); [now apply be_uint_bounds |].
    change 256 with (2 ^ 8). rewrite <- Z.pow_mul_r; [reflexivity | lia | lia]. }
  repeat split.
  1, 2: apply (to_signed_bounds 32); [lia |];
        apply (Hbound 4%nat); [apply Forall_take; exact Hdata | rewrite length_take; lia].
  1, 2: apply (to_signed_bounds 32); [lia |];
        apply (Hbound 4%nat);
          [apply Forall_take, Forall_drop; exact Hdata
          | rewrite length_take, length_drop; lia].
  1, 2: apply (to_signed_bounds 16); [lia |];
        apply (Hbound 2%nat);
          [apply Forall_take, Forall_drop; exact Hdata
          | rewrite length_take, length_drop; lia].
Qed.

Lemma assign_row_length (num_features : Z) (values row : list float) :
  0 <= num_features ->
  assign_row num_features values = Ok row -> length row = Z.to_nat num_features.
Proof.
  intros Hnn. unfold assign_row.
  destruct (Z.eqb_spec (Z.of_nat (length values)) num_features) as [Heq|Hne].
  - intros H. injection H as <-. lia.
  - destruct values as [|v [|v' values]]; try discriminate.
    intros H. injection H as <-. apply length_replicate.
Qed.

Lemma read_samples_shape (n : nat) (sample_size num_features : Z) (fp : list Z)
    (rows : list (list float)) :
  0 <= num_features ->
  read_samples n sample_size num_features fp = Ok rows ->
  length rows = n /\ Forall (fun row => length row = Z.to_nat num_features) rows.
Proof.
  intros Hnn. revert fp rows. induction n as [|n IH]; intros fp rows.
  - cbn. intros H. injection H as <-. split; [reflexivity | constructor].
  - cbn [read_samples]. destruct (fp_read sample_size fp) as [data fp'].
    unfold mbind, result_bind.
    destruct (unpack_floats _ data) as [values|e]; [| discriminate].
    destruct (assign_row num_features values) as [row|e] eqn:Hrow; [| discriminate].
    destruct (read_samples n sample_size num_features fp') as [rows'|e] eqn:Hrest;
      [| discriminate].
    intros H. injection H as <-.
    destruct (IH _ _ Hrest) as [Hlen Hall].
    split; [simpl; now rewrite Hlen |].
    constructor; [now apply (assign_row_length _ values) | exact Hall].
Qed.

(** Whatever the bytes of the file, what [load_htk] returns is a matrix:
    every row has [num_features] entries, with [num_features] at most 8191
    (the sample size is an int16), there are fewer than [2 ^ 31] rows and the
    sample period is an int32 (lines 336-345). *)
Theorem load_htk_bytes_shape (fp : list Z) (X : ndarray) (sample_period : Z) :
  Forall (fun b => 0 <= b < 256) fp ->
  load_htk_bytes fp = Ok (X, sample_period) ->
  exists (num_features : nat) (rows : list (list float)),
    X = Arr2 num_features rows /\
    Forall (fun row => length row = num_features) rows /\
    Z.of_nat num_features <= 8191 /\
    Z.of_nat (length rows) < 2 ^ 31 /\
    - 2 ^ 31 <= sample_period < 2 ^ 31.
Proof.
  intros Hfp. unfold load_htk_bytes, fp_read.
  change (12 <? 0) with false. cbv iota.
  destruct (unpack_header (take (Z.to_nat 12) fp)) as [[[[ns sp] ss] kind]|e] eqn:Hheader;
    [| discriminate].
  apply unpack_header_bounds in Hheader as (Hns & Hsp & Hss); [| now apply Forall_take].
  unfold mbind, result_bind.
  destruct ((ns <? 0) || (Z.quot ss 4 <? 0)) eqn:Hneg; [discriminate |].
  apply orb_false_elim in Hneg as [Hns0 Hnf0].
  apply Z.ltb_ge in Hns0, Hnf0.
  destruct (read_samples _ _ _ _) as [rows|e] eqn:Hrows; [| discriminate].
  intros H. injection H as <- <-.
  destruct (read_samples_shape _ _ _ _ _ Hnf0 Hrows) as [Hlen Hall].
  assert (Hquot : Z.quot ss 4 <= Z.quot 32767 4) by (apply Z.quot_le_mono; lia).
  change (Z.quot 32767 4) with 8191 in Hquot.
  exists (Z.to_nat (Z.quot ss 4)), rows.
  split; [reflexivity | split; [exact Hall | split; [lia | split; [lia | exact Hsp]]]].
Qed.

(** The example file. *)
Lemma load_htk_bytes_shape_witness :
  exists (num_features : nat) (rows : list (list float)),
    Arr2 2 [[1; 2]; [3; 4]]%float = Arr2 num_features rows /\
    Forall (fun row => length row = num_features) rows /\
    Z.of_nat num_features <= 8191 /\
    Z.of_nat (length rows) < 2 ^ 31 /\
    - 2 ^ 31 <= 100000 < 2 ^ 31.
Proof.
  apply (load_htk_bytes_shape example_htk_bytes).
  - rewrite example_htk_bytes_literal. repeat constructor; lia.
  - reflexivity.
Defined.

Lemma read_samples_htk_records_app
    (num_features : nat) (records : list (list Z)) (rest : list Z) :
  Forall (fun record => length record = num_features /\
                        Forall (fun w => 0 <= w < 2 ^ 32) record) records ->
  read_samples (length records) (4 * Z.of_nat num_features) (Z.of_nat num_features)
    (concat (map htk_record records) ++ rest)%list =
  Ok (map (map f32_of_bits) records).
Proof.
  induction 1 as [|record records [Hlen Hrange] _ IH]; [reflexivity |].
  cbn [length map concat read_samples]. rewrite <- app_assoc.
  replace (4 * Z.of_nat num_features) with (Z.of_nat (length (htk_record record)))
    by (rewrite htk_record_length, Hlen; lia).
  rewrite fp_read_app.
  replace (Z.of_nat (length (htk_record record))) with (4 * Z.of_nat num_features) in *
    by (rewrite htk_record_length, Hlen; lia).
  replace ((4 * Z.of_nat num_features) `div` 4) with (Z.of_nat num_features)
    by (rewrite Z.mul_comm, Z.div_mul; lia).
  rewrite (unpack_floats_htk_record _ _ Hlen Hrange).
  unfold mbind, result_bind, assign_row.
  rewrite length_map, Hlen, Z.eqb_refl, IH. reflexivity.
Qed.

(** [load_htk] reads the header and [num_samples] records, and never looks
    at what follows them (lines 342-344): bytes after the last record of a
    well-formed file change nothing. *)
Theorem load_htk_bytes_ignores_trailing_bytes
    (num_samples sample_period sample_size reserved : Z) (num_features : nat)
    (records : list (list Z)) (trailing : list Z) :
  well_formed_htk num_samples sample_period sample_size reserved num_features records ->
  load_htk_bytes
    (htk_file num_samples sample_period sample_size reserved records ++ trailing)%list =
  load_htk_bytes (htk_file num_samples sample_period sample_size reserved records).
Proof.
  intros Hwf. rewrite (load_htk_bytes_htk_file _ _ _ _ _ _ Hwf).
  destruct Hwf as (Hn & Hn31 & Hp & Hs & Hs15 & Hr & Hrecords).
  unfold load_htk_bytes, htk_file. rewrite <- app_assoc.
  change 12 with (Z.of_nat (length (htk_header num_samples sample_period sample_size reserved))).
  rewrite fp_read_app.
  rewrite unpack_header_htk_header by lia.
  unfold mbind, result_bind.
  replace (Z.quot sample_size 4) with (Z.of_nat num_features)
    by (rewrite Hs, Z.mul_comm, Z.quot_mul; lia).
  replace (num_samples <? 0) with false by (symmetry; apply Z.ltb_ge; lia).
  replace (Z.of_nat num_features <? 0) with false by (symmetry; apply Z.ltb_ge; lia).
  cbn [orb]. rewrite Hn, !Nat2Z.id, Hs.
  now rewrite (read_samples_htk_records_app _ _ _ Hrecords).
Qed.

(** Three more bytes after the example file. *)
Lemma load_htk_bytes_ignores_trailing_bytes_witness :
  load_htk_bytes (example_htk_bytes ++ [1; 2; 3])%list =
    Ok (Arr2 2 [[1; 2]; [3; 4]]%float, 100000).
Proof.
  assert (Hwf : well_formed_htk 2 100000 8 0 2 example_records).
  { unfold well_formed_htk, example_records. repeat split; try lia; try reflexivity;
      repeat constructor; lia. }
  exact (load_htk_bytes_ignores_trailing_bytes 2 100000 8 0 2 example_records [1; 2; 3] Hwf).
Defined.

Lemma read_samples_truncated
    (num_features missing : nat) (records : list (list Z)) (partial : list Z) :
  Forall (fun record => length record = num_features /\
                        Forall (fun w => 0 <= w < 2 ^ 32) record) records ->
  (length partial < 4 * num_features)%nat ->
  read_samples (length records + S missing) (4 * Z.of_nat num_features)
    (Z.of_nat num_features) (concat (map htk_record records) ++ partial)%list =
  Raise (StructError (4 * Z.of_nat num_features)).
Proof.
  intros Hrecords Hshort.
  induction Hrecords as [|record records [Hlen Hrange] _ IH].
  - cbn [length map concat app Nat.add read_samples]. unfold fp_read.
    replace (4 * Z.of_nat num_features <? 0) with false by (symmetry; apply Z.ltb_ge; lia).
    unfold unpack_floats, mbind, result_bind.
    replace ((4 * Z.of_nat num_features) `div` 4) with (Z.of_nat num_features)
      by (rewrite Z.mul_comm, Z.div_mul; lia).
    rewrite Z.max_r by lia. rewrite length_take.
    replace (Z.of_nat (Z.to_nat (4 * Z.of_nat num_features) `min` length partial)
             =? 4 * Z.of_nat num_features) with false; [reflexivity |].
    symmetry. apply Z.eqb_neq. lia.
  - cbn [length map concat Nat.add read_samples]. rewrite <- app_assoc.
    replace (4 * Z.of_nat num_features) with (Z.of_nat (length (htk_record record)))
      by (rewrite htk_record_length, Hlen; lia).
    rewrite fp_read_app.
    replace (Z.of_nat (length (htk_record record))) with (4 * Z.of_nat num_features) in *
      by (rewrite htk_record_length, Hlen; lia).
    replace ((4 * Z.of_nat num_features) `div` 4) with (Z.of_nat num_features)
      by (rewrite Z.mul_comm, Z.div_mul; lia).
    rewrite (unpack_floats_htk_record _ _ Hlen Hrange).
    unfold mbind, result_bind, assign_row.
    rewrite length_map, Hlen, Z.eqb_refl.
    replace ((4 * Z.of_nat num_features) `div` 4) with (Z.of_nat num_features) in IH
      by (rewrite Z.mul_comm, Z.div_mul; lia).
    now rewrite IH.
Qed.

(** A file that holds fewer records than its header announces, followed
    by less than one record, ends in the error of [unpack] at the first
    record that is not whole (lines 342-344). *)
Theorem load_htk_bytes_truncated
    (num_samples sample_period reserved : Z) (num_features : nat)
    (records : list (list Z)) (partial : list Z) :
  Z.of_nat (length records) < num_samples < 2 ^ 31 ->
  - 2 ^ 31 <= sample_period < 2 ^ 31 ->
  4 * Z.of_nat num_features < 2 ^ 15 ->
  - 2 ^ 15 <= reserved < 2 ^ 15 ->
  Forall (fun record => length record = num_features /\
                        Forall (fun w => 0 <= w < 2 ^ 32) record) records ->
  (length partial < 4 * num_features)%nat ->
  load_htk_bytes
    (htk_header num_samples sample_period (4 * Z.of_nat num_features) reserved ++
     concat (map htk_record records) ++ partial)%list =
  Raise (StructError (4 * Z.of_nat num_features)).
Proof.
  intros Hn Hp Hs Hr Hrecords Hshort.
  unfold load_htk_bytes.
  change 12 with (Z.of_nat (length (htk_header num_samples sample_period
                                      (4 * Z.of_nat num_features) reserved))).
  rewrite fp_read_app.
  rewrite unpack_header_htk_header by lia.
  unfold mbind, result_bind.
  replace (Z.quot (4 * Z.of_nat num_features) 4) with (Z.of_nat num_features)
    by (rewrite Z.mul_comm, Z.quot_mul; lia).
  replace (num_samples <? 0) with false by (symmetry; apply Z.ltb_ge; lia).
  replace (Z.of_nat num_features <? 0) with false by (symmetry; apply Z.ltb_ge; lia).
  cbn [orb].
  replace (Z.to_nat num_samples)
    with (length records + S (Z.to_nat (num_samples - Z.of_nat (length records) - 1)))%nat
    by lia.
  now rewrite (read_samples_truncated _ _ _ _ Hrecords Hshort).
Qed.

(** The example file cut in the middle of its second record. *)
Lemma load_htk_bytes_truncated_witness :
  load_htk_bytes [0; 0; 0; 2;  0; 1; 134; 160;  0; 8;  0; 0;
                  63; 128; 0; 0;  64; 0; 0; 0;  64; 64; 0; 0] =
    Raise (StructError 8).
Proof.
  apply (load_htk_bytes_truncated 2 100000 0 2 [[0x3F800000; 0x40000000]] [64; 64; 0; 0]);
    try (simpl; lia).
  repeat constructor; lia.
Defined.

(** A header with a negative number of samples, or a sample size of -4 or
    less, is refused by [np.empty] (line 341), whatever follows the header. *)
Theorem load_htk_bytes_negative_dimensions
    (num_samples sample_period sample_size reserved : Z) (rest : list Z) :
  - 2 ^ 31 <= num_samples < 2 ^ 31 ->
  - 2 ^ 31 <= sample_period < 2 ^ 31 ->
  - 2 ^ 15 <= sample_size < 2 ^ 15 ->
  - 2 ^ 15 <= reserved < 2 ^ 15 ->
  num_samples < 0 \/ sample_size <= - 4 ->
  load_htk_bytes (htk_header num_samples sample_period sample_size reserved ++ rest)%list =
    Raise (ValueError "negative dimensions are not allowed").
Proof.
  intros Hn Hp Hs Hr Hneg. unfold load_htk_bytes.
  change 12 with (Z.of_nat (length (htk_header num_samples sample_period sample_size reserved))).
  rewrite fp_read_app.
  rewrite unpack_header_htk_header by lia.
  unfold mbind, result_bind.
  replace ((num_samples <? 0) || (Z.quot sample_size 4 <? 0)) with true; [reflexivity |].
  symmetry. apply orb_true_iff. destruct Hneg as [Hneg | Hneg].
  - left. apply Z.ltb_lt. lia.
  - right. apply Z.ltb_lt.
    assert (H : Z.quot sample_size 4 <= Z.quot (- 4) 4) by (apply Z.quot_le_mono; lia).
    change (Z.quot (- 4) 4) with (- 1) in H. lia.
Qed.

(** A header that announces -1 samples. *)
Lemma load_htk_bytes_negative_dimensions_witness :
  load_htk_bytes [255; 255; 255; 255;  0; 1; 134; 160;  0; 8;  0; 0] =
    Raise (ValueError "negative dimensions are not allowed").
Proof.
  apply (load_htk_bytes_negative_dimensions (- 1) 100000 8 0 []); lia.
Defined.

(** ** [glob] *)







Lemma has_magic_app (s t : string) : has_magic (s ++ t) = has_magic s || has_magic t.
Proof.
  induction s as [|c s IH]; [reflexivity |].
  rewrite append_cons. cbn [has_magic]. rewrite IH. now rewrite orb_assoc.
Qed.










(** ** [PrecomputedHTK] *)

Section PrecomputedHTK_properties.

Variable npy_bytes : ndarray -> list Z.
Variable yaml_bytes : metadata -> list Z.

Abbreviation load_htk := (PrecomputedHTK.load_htk npy_bytes yaml_bytes).
Abbreviation __init__ := (PrecomputedHTK.__init__ npy_bytes yaml_bytes).
Abbreviation __call__ := (PrecomputedHTK.__call__ npy_bytes yaml_bytes).

Lemma load_htk_raw (path : string) (bytes : list Z) (fs : FS) :
  fs !! path = Some (RawFile bytes) ->
  load_htk path fs = (load_htk_bytes bytes, fs).
Proof.
  intros Hfile. unfold PrecomputedHTK.load_htk, PrecomputedHTK.open_rb, mbind, M_bind, lift.
  now rewrite Hfile.
Qed.

Lemma load_htk_absent (path : string) (fs : FS) :
  fs !! path = None ->
  load_htk path fs = (Raise (IOError ENOENT path), fs).
Proof.
  intros Hfile. unfold PrecomputedHTK.load_htk, PrecomputedHTK.open_rb, mbind, M_bind, lift.
  now rewrite Hfile.
Qed.




(** C10 (absent file, the two backends).  On a key whose file is absent,
    [PrecomputedHTK.__call__] tests nothing before [load_htk] opens the file, and
    ends with the [IOError] of [open] (no such file); [Precomputed.__call__]
    raises [PyannoteFeatureExtractionError]; the two exceptions differ. *)
Theorem PrecomputedHTK_call_absent_file
    (htk : PrecomputedHTK.t) (npy : Precomputed.t) (uri : string) (fs : FS) :
  fs !! PrecomputedHTK.get_path (PrecomputedHTK.root_dir htk) uri = None ->
  fs !! Precomputed.get_path (Precomputed.root_dir npy) uri = None ->
  __call__ htk uri fs =
    (Raise (IOError ENOENT (PrecomputedHTK.get_path (PrecomputedHTK.root_dir htk) uri)), fs) /\
  Precomputed.__call__ npy uri fs =
    (Raise (PyannoteFeatureExtractionError
              ("No precomputed features for " ++ dq ++ uri ++ dq ++ ".")), fs) /\
  fst (__call__ htk uri fs) <> fst (Precomputed.__call__ npy uri fs).
Proof.
  intros Hhtk Hnpy.
  assert (H1 : __call__ htk uri fs =
    (Raise (IOError ENOENT (PrecomputedHTK.get_path (PrecomputedHTK.root_dir htk) uri)), fs)).
  { unfold PrecomputedHTK.__call__, mbind, M_bind. now rewrite (load_htk_absent _ _ Hhtk). }
  assert (H2 : Precomputed.__call__ npy uri fs =
    (Raise (PyannoteFeatureExtractionError
              ("No precomputed features for " ++ dq ++ uri ++ dq ++ ".")), fs)).
  { unfold Precomputed.__call__, mbind, M_bind, os_path_exists. rewrite Hnpy.
    rewrite bool_decide_eq_false_2; [reflexivity | intros [? ?]; discriminate]. }
  split; [exact H1 | split; [exact H2 |]].
  rewrite H1, H2. discriminate.
Qed.

(** A [step] given by the caller replaces the step of the header
    (lines 311-318). *)
Theorem PrecomputedHTK_init_step_override
    (root_dir : string) (frame_duration given_step mu sigma : float) (fs : FS)
    (first : string) (others : list string) (bytes : list Z)
    (num_features : nat) (rows : list (list float)) (sample_period : Z) :
  let grid := {| start := 0%float; duration := frame_duration; step := given_step |} in
  glob (root_dir ++ "/*/*.htk") fs = (Ok (first :: others), fs) ->
  fs !! first = Some (RawFile bytes) ->
  load_htk_bytes bytes = Ok (Arr2 num_features rows, sample_period) ->
  valid_window grid = true ->
  exists self,
    __init__ root_dir frame_duration (Some given_step) mu sigma fs = (Ok self, fs) /\
    PrecomputedHTK.sliding_window_ self = grid /\
    PrecomputedHTK.dimension_ self = num_features.
Proof.
  intros grid Hglob Hfirst Hload Hgrid.
  assert (Hwindow : SlidingWindow_init frame_duration given_step 0 = Ok grid)
    by apply (SlidingWindow_init_valid grid Hgrid).
  exists {| PrecomputedHTK.root_dir := root_dir; PrecomputedHTK.duration := frame_duration;
            PrecomputedHTK.step := given_step;
            PrecomputedHTK.mu := mu; PrecomputedHTK.sigma := sigma;
            PrecomputedHTK.sliding_window_ := grid;
            PrecomputedHTK.dimension_ := num_features |}.
  split; [| split; reflexivity].
  unfold PrecomputedHTK.__init__, mbind at 1, M_bind at 1. rewrite Hglob.
  unfold mbind at 1, M_bind at 1.
  unfold PrecomputedHTK.load_htk, PrecomputedHTK.open_rb, mbind at 1, M_bind at 1.
  rewrite Hfirst. unfold lift. rewrite Hload.
  unfold mbind, M_bind, lift. cbn [PrecomputedHTK.shape_1].
  rewrite Hwindow. reflexivity.
Qed.

(** Lines 347-351 test nothing of the file against the handle: whatever
    the dimension and the step that the handle holds, a file that decodes
    is returned, normalised, on the grid of the handle. *)
Theorem PrecomputedHTK_call_any_handle
    (self : PrecomputedHTK.t) (uri : string) (fs : FS) (bytes : list Z)
    (X : ndarray) (sample_period : Z) :
  fs !! PrecomputedHTK.get_path (PrecomputedHTK.root_dir self) uri = Some (RawFile bytes) ->
  load_htk_bytes bytes = Ok (X, sample_period) ->
  __call__ self uri fs =
    (Ok {| data := ndarray_map (fun x => ((x - PrecomputedHTK.mu self) /
                                          PrecomputedHTK.sigma self)%float) X;
           sliding_window := PrecomputedHTK.sliding_window_ self |}, fs).
Proof.
  intros Hfile Hload.
  unfold PrecomputedHTK.__call__, mbind at 1, M_bind at 1.
  rewrite (load_htk_raw _ _ _ Hfile), Hload.
  unfold mbind, M_bind, lift. now rewrite normalize_some.
Qed.



End PrecomputedHTK_properties.




(** C10 on the key [db/b], absent from both caches. *)
Lemma PrecomputedHTK_call_absent_file_witness :
  example_htk_fs !! PrecomputedHTK.get_path "feat" "db/b" = None /\
  example_htk_fs !! Precomputed.get_path "cache" "db/b" = None /\
  PrecomputedHTK.__call__ no_bytes no_bytes
      {| PrecomputedHTK.root_dir := "feat";
         PrecomputedHTK.duration := PrecomputedHTK.default_duration;
         PrecomputedHTK.step := 0.01%float;
         PrecomputedHTK.mu := 0%float; PrecomputedHTK.sigma := 1%float;
         PrecomputedHTK.sliding_window_ := example_window;
         PrecomputedHTK.dimension_ := 2 |} "db/b" example_htk_fs =
    (Raise (IOError ENOENT "feat/db/b.htk"), example_htk_fs) /\
  Precomputed.__call__ (example_cache None None) "db/b" example_htk_fs =
    (Raise (PyannoteFeatureExtractionError
              ("No precomputed features for " ++ dq ++ "db/b" ++ dq ++ ".")),
     example_htk_fs).
Proof.
  assert (H1 : example_htk_fs !! PrecomputedHTK.get_path "feat" "db/b" = None) by reflexivity.
  assert (H2 : example_htk_fs !! Precomputed.get_path "cache" "db/b" = None) by reflexivity.
  split; [exact H1 | split; [exact H2 |]].
  destruct (PrecomputedHTK_call_absent_file no_bytes no_bytes
              {| PrecomputedHTK.root_dir := "feat";
                 PrecomputedHTK.duration := PrecomputedHTK.default_duration;
                 PrecomputedHTK.step := 0.01%float;
                 PrecomputedHTK.mu := 0%float; PrecomputedHTK.sigma := 1%float;
                 PrecomputedHTK.sliding_window_ := example_window;
                 PrecomputedHTK.dimension_ := 2 |}
              (example_cache None None) "db/b" example_htk_fs H1 H2) as (Hhtk & Hnpy & _).
  split; [exact Hhtk | exact Hnpy].
Defined.

(** The header says 0.01 and the caller 0.02. *)
Lemma PrecomputedHTK_init_step_override_witness :
  exists self,
    PrecomputedHTK.__init__ no_bytes no_bytes "feat" PrecomputedHTK.default_duration
      (Some 0.02%float) 0 1 example_htk_fs = (Ok self, example_htk_fs) /\
    PrecomputedHTK.sliding_window_ self =
      {| start := 0%float; duration := 0.025%float; step := 0.02%float |} /\
    PrecomputedHTK.dimension_ self = 2%nat.
Proof.
  exact (PrecomputedHTK_init_step_override no_bytes no_bytes "feat"
           PrecomputedHTK.default_duration 0.02%float 0 1 example_htk_fs
           "feat/db/a.htk" [] example_htk_bytes 2
           [[1; 2]; [3; 4]]%float 100000 eq_refl eq_refl eq_refl eq_refl).
Defined.

(** A handle of dimension 13 and of step 0.02 on the example file, of
    dimension 2 and of step 0.01, with [mu = 1] and [sigma = 2]. *)
Lemma PrecomputedHTK_call_any_handle_witness :
  PrecomputedHTK.__call__ no_bytes no_bytes
      {| PrecomputedHTK.root_dir := "feat";
         PrecomputedHTK.duration := PrecomputedHTK.default_duration;
         PrecomputedHTK.step := 0.02%float;
         PrecomputedHTK.mu := 1%float; PrecomputedHTK.sigma := 2%float;
         PrecomputedHTK.sliding_window_ :=
           {| start := 0%float; duration := 0.025%float; step := 0.02%float |};
         PrecomputedHTK.dimension_ := 13 |} "db/a" example_htk_fs =
    (Ok {| data := Arr2 2 [[0; 0.5]; [1; 1.5]]%float;
           sliding_window :=
             {| start := 0%float; duration := 0.025%float; step := 0.02%float |} |},
     example_htk_fs).
Proof.
  exact (PrecomputedHTK_call_any_handle no_bytes no_bytes
           {| PrecomputedHTK.root_dir := "feat";
              PrecomputedHTK.duration := PrecomputedHTK.default_duration;
              PrecomputedHTK.step := 0.02%float;
              PrecomputedHTK.mu := 1%float; PrecomputedHTK.sigma := 2%float;
              PrecomputedHTK.sliding_window_ :=
                {| start := 0%float; duration := 0.025%float; step := 0.02%float |};
              PrecomputedHTK.dimension_ := 13 |} "db/a" example_htk_fs
           example_htk_bytes (Arr2 2 [[1; 2]; [3; 4]]%float) 100000 eq_refl eq_refl).
Defined.


